(** * Linear state-space models over dense and column-compressed matrices

    A shallow embedding of [sharpy/linear/src/libsparse.py] (the
    dense/sparse dispatch layer) and of the interconnection routines of
    [sharpy/linear/src/libss.py], followed by the properties established
    about them.

    Conventions of the embedding.
    - Floating-point numbers are idealised as the elements of a numeric
      field [F]; complex numbers as those of a closed numeric field.
    - Shapes are carried by the types: a value of type ['M[F]_(m,n)] is a
      2-D [numpy.ndarray] of shape (m,n), a value of type [csc m n] is a
      [libsparse.csc_matrix] of that shape.  The shape assertions of the
      source therefore hold by typing.
    - A Python value that may be of either class has type [array m n].
    - An exception is the [Raise] outcome of the [result] monad.
    - numpy and scipy routines are represented by what they return on 2-D
      operands with at least one row and one column: the class of the
      result and its entries. *)

From HB Require Import structures.
From mathcomp Require Import ssreflect ssrfun ssrbool eqtype ssrnat seq choice.
From mathcomp Require Import fintype finfun bigop order ssralg ssrnum matrix rat.

Set Implicit Arguments.
Unset Strict Implicit.
Unset Printing Implicit Defensive.

Import GRing.Theory Num.Theory Order.Theory.
Local Open Scope ring_scope.

(** ** Exceptions and the error monad *)

Inductive exn : Set :=
  | AssertionError
  | TypeError
  | AttributeError
  | NameError
  | ValueError
  | ZeroDivisionError
  | LinAlgError
  | RuntimeError
  | MatrixRankWarning.

Inductive result (T : Type) : Type :=
  | Ok of T
  | Raise of exn.

Arguments Ok {T} _.
Arguments Raise {T} _.

Definition bind (T U : Type) (c : result T) (k : T -> result U) : result U :=
  match c with
  | Ok x => k x
  | Raise e => Raise e
  end.

Notation "x <-- c ;; k" := (bind c (fun x => k))
  (at level 200, c at level 100, k at level 200, right associativity,
   format "'[v' x  <--  c  ;; '/' k ']'").
Notation "c ;;; k" := (bind c (fun _ => k))
  (at level 200, k at level 200, right associativity,
   format "'[v' c  ;;; '/' k ']'").

(** [assert b, msg] *)
Definition assert (b : bool) : result unit :=
  if b then Ok tt else Raise AssertionError.

Definition is_ok (T : Type) (c : result T) : bool :=
  if c is Ok _ then true else false.

(** ** Classes of matrix values *)

(** [t_other] stands for any class outside [SupportedTypes]
    (numpy.matrix, scipy's own sparse classes, ...): it can be passed as
    [type_out] but no matrix of the embedding has it. *)
Inductive pytype : Set := t_ndarray | t_csc_matrix | t_other.

Definition pytype_eqb (s t : pytype) : bool :=
  match s, t with
  | t_ndarray, t_ndarray | t_csc_matrix, t_csc_matrix | t_other, t_other => true
  | _, _ => false
  end.

Lemma pytype_eqP : Equality.axiom pytype_eqb.
Proof. by case; case; constructor. Qed.

HB.instance Definition _ := hasDecEq.Build pytype pytype_eqP.

Module libsparse.

Section Storage.

Variable F : fieldType.

(** *** Column-compressed storage

    A [csc_matrix] of shape (m,n) keeps, for every column, the list of its
    stored entries as pairs (row index, value).  Densifying adds up the
    stored values that share a position, as scipy does. *)
Definition csc (m n : nat) : Type := {ffun 'I_n -> seq ('I_m * F)}.

(** Row-compressed storage, which scipy uses for the transpose of a
    column-compressed matrix. *)
Definition csr (m n : nat) : Type := {ffun 'I_m -> seq ('I_n * F)}.

(** [scipy.sparse.csc_matrix(a)] for a dense [a]: the non-zero entries of
    each column, by increasing row. *)
Definition csc_of_ndarray m n (a : 'M[F]_(m, n)) : csc m n :=
  [ffun j => [seq (i, a i j) | i <- enum 'I_m & a i j != 0]].

(** [scipy.sparse.csc_matrix.todense] (entries only). *)
Definition csc_toarray m n (s : csc m n) : 'M[F]_(m, n) :=
  \matrix_(i, j) \sum_(e <- s j | e.1 == i) e.2.

(** [s.transpose()]: the same storage read by rows. *)
Definition csc_transpose m n (s : csc m n) : csr n m := s.

(** [r.dot(b)] for a row-compressed [r] and a dense [b]: a dense result,
    accumulated over the stored entries of [r] only. *)
Definition csr_dot_ndarray m n p (r : csr m n) (b : 'M[F]_(n, p)) : 'M[F]_(m, p) :=
  \matrix_(i, k) \sum_(e <- r i) e.2 * b e.1 k.

(** [s.dot(b)] for a column-compressed [s] and a dense [b]: a dense result,
    accumulated over the stored entries of [s] only. *)
Definition csc_dot_ndarray m n p (s : csc m n) (b : 'M[F]_(n, p)) : 'M[F]_(m, p) :=
  \matrix_(i, k) \sum_j \sum_(e <- s j | e.1 == i) e.2 * b j k.

(** The sparse kernels whose result is sparse again are represented by the
    entries of their result, stored without explicit zeros. *)
Definition csc_dot_csc m n p (s : csc m n) (t : csc n p) : csc m p :=
  csc_of_ndarray (csc_toarray s *m csc_toarray t).

Definition csc_add m n (s t : csc m n) : csc m n :=
  csc_of_ndarray (csc_toarray s + csc_toarray t).

Definition csc_opp m n (s : csc m n) : csc m n :=
  [ffun j => [seq (e.1, - e.2) | e <- s j]].

Definition csc_scale m n (z : F) (s : csc m n) : csc m n :=
  [ffun j => [seq (e.1, z * e.2) | e <- s j]].

(** [D=csc_matrix((nrows,nrows)); D.setdiag(1.)] *)
Definition csc_eye n : csc n n := [ffun j => [:: (j, 1)]].

(** *** Dynamically typed matrix values *)
Inductive array (m n : nat) : Type :=
  | Ndarray of 'M[F]_(m, n)
  | Csc of csc m n.

(** [type(A)] *)
Definition type_of m n (A : array m n) : pytype :=
  match A with
  | Ndarray _ => t_ndarray
  | Csc _ => t_csc_matrix
  end.

(** The entries of a matrix value, whatever its class. *)
Definition mx m n (A : array m n) : 'M[F]_(m, n) :=
  match A with
  | Ndarray a => a
  | Csc s => csc_toarray s
  end.

(** [csc_matrix(arg1)]: the constructor of the wrapper class. *)
Definition csc_matrix m n (arg1 : array m n) : array m n :=
  match arg1 with
  | Ndarray a => Csc (csc_of_ndarray a)
  | Csc s => Csc s
  end.

(** [M.todense()]: the method of the wrapper class, which returns a
    [numpy.ndarray]; a [numpy.ndarray] has no such attribute. *)
Definition todense m n (M : array m n) : result (array m n) :=
  match M with
  | Ndarray _ => Raise AttributeError
  | Csc s => Ok (Ndarray (csc_toarray s))
  end.

(** [A+B], [-A], [z*A] and [A-B] on matrix values: sparse when every
    operand is sparse, dense otherwise. *)
Definition add m n (A B : array m n) : array m n :=
  match A, B with
  | Csc s, Csc t => Csc (csc_add s t)
  | _, _ => Ndarray (mx A + mx B)
  end.

Definition opp m n (A : array m n) : array m n :=
  match A with
  | Ndarray a => Ndarray (- a)
  | Csc s => Csc (csc_opp s)
  end.

Definition scale m n (z : F) (A : array m n) : array m n :=
  match A with
  | Ndarray a => Ndarray (z *: a)
  | Csc s => Csc (csc_scale z s)
  end.

Definition sub m n (A B : array m n) : array m n := add A (opp B).

(** *** The module's functions *)

Definition SupportedTypes : seq pytype := [:: t_ndarray; t_csc_matrix].

(** The product computed by [dot] before its output is formatted: the
    transposed product when [A] is dense and [B] sparse, [A.dot(B)] in the
    three other cases.  The [dot] method of a scipy sparse matrix returns a
    [numpy.ndarray] for a dense argument and a sparse matrix of its own
    class for a sparse one. *)
Definition dot_product m n p (A : array m n) (B : array n p) : array m p :=
  match A, B with
  | Ndarray a, Csc b =>
      (* C=(B.transpose()).dot(A.transpose()).transpose() *)
      Ndarray (csr_dot_ndarray (csc_transpose b) a^T)^T
  | Ndarray a, Ndarray b => (* C=A.dot(B) *) Ndarray (a *m b)
  | Csc a, Ndarray b => (* C=A.dot(B) *) Ndarray (csc_dot_ndarray a b)
  | Csc a, Csc b => (* C=A.dot(B) *) Csc (csc_dot_csc a b)
  end.

Definition dot m n p (A : array m n) (B : array n p)
    (type_out : option pytype) : result (array m p) :=
  let tA := type_of A in
  let tB := type_of B in
  assert (tA \in SupportedTypes) ;;;
  assert (tB \in SupportedTypes) ;;;
  type_out <-- (if type_out is Some t
                then assert (t \in SupportedTypes) ;;; Ok t
                else Ok tA) ;;
  let C := dot_product A B in
  if tA != type_out then
    if type_out == t_csc_matrix then Ok (csc_matrix C) else todense C
  else Ok C.

(** [numpy.linalg.solve]: dense operands; the solution of [a x = b], which
    is [invmx a *m b] when [a] is non-singular, and [LinAlgError] when it
    is singular. *)
Definition np_linalg_solve n p (a : 'M[F]_n) (b : 'M[F]_(n, p)) :
    result (array n p) :=
  if a \in unitmx then Ok (Ndarray (invmx a *m b)) else Raise LinAlgError.

(** [scipy.sparse.linalg.spsolve]: the solution has the class of the
    right-hand side.  On a singular matrix scipy raises from its
    factorisation when [b] is sparse, and warns and fills the solution with
    NaN when [b] is dense; [F] has no NaN, so the warning ends the run.
    scipy hands back a flat 1-D solution when [b] has a single column;
    the embedding keeps it as a column. *)
Definition spsolve n p (s : csc n n) (b : array n p) : result (array n p) :=
  let a := csc_toarray s in
  match b with
  | Ndarray b' =>
      if a \in unitmx then Ok (Ndarray (invmx a *m b'))
      else Raise MatrixRankWarning
  | Csc t =>
      if a \in unitmx then Ok (Csc (csc_of_ndarray (invmx a *m csc_toarray t)))
      else Raise RuntimeError
  end.

Definition solve n p (A : array n n) (b : array n p) : result (array n p) :=
  let tA := type_of A in
  let tB := type_of b in
  assert (tA \in SupportedTypes) ;;;
  assert (tB \in SupportedTypes) ;;;
  x <-- match A with
        | Ndarray a =>
            match b with
            | Csc t => np_linalg_solve a (csc_toarray t)
            | Ndarray b' => np_linalg_solve a b'
            end
        | Csc s => spsolve s b
        end ;;
  assert (type_of x \in SupportedTypes) ;;;
  Ok x.

(** [dense(M)]: the second test of the source repeats the first. *)
Definition dense m n (M : array m n) : array m n :=
  if type_of M == t_csc_matrix then Ndarray (mx M)
  else if type_of M == t_csc_matrix then Ndarray (mx M)
  else M.

Definition eye_as n (M : array n n) : result (array n n) :=
  let tM := type_of M in
  assert (tM \in SupportedTypes) ;;;
  (* nrows==M.shape[1] holds by typing *)
  Ok (match M with
      | Csc _ => Csc (csc_eye n)
      | Ndarray _ => Ndarray 1%:M
      end).

End Storage.

End libsparse.

Module libss.

Import libsparse.

Section Models.

Variable F : numFieldType.

Local Notation array := (array F).

(** *** numpy and scipy.signal at the boundary of the module *)

(** numpy's array-building routines ([numpy.block], [numpy.concatenate],
    slice assignment) and [scipy.signal.StateSpace] work on
    [numpy.ndarray] operands.  Handed a scipy sparse matrix they do not
    build a numeric array; the embedding stops with [ValueError] there. *)
Definition np_asarray m n (M : array m n) : result 'M[F]_(m, n) :=
  match M with
  | Ndarray a => Ok a
  | Csc _ => Raise ValueError
  end.

(** A system of [scipy.signal]: [StateSpaceDiscrete] when it has a sample
    interval, [StateSpaceContinuous] otherwise. *)
Record StateSpace (nx nu ny : nat) : Type := scsig_StateSpace {
  sA : 'M[F]_(nx, nx);
  sB : 'M[F]_(nx, nu);
  sC : 'M[F]_(ny, nx);
  sD : 'M[F]_(ny, nu);
  sdt : option F
}.

(** *** The class [ss] *)

Record ss (nx nu ny : nat) : Type := SS {
  A : array nx nx;
  B : array nx nu;
  C : array ny nx;
  D : array ny nu;
  dt : option F
}.

Definition check_types nx nu ny (self : ss nx nu ny) : result unit :=
  assert (type_of (A self) \in SupportedTypes) ;;;
  assert (type_of (B self) \in SupportedTypes) ;;;
  assert (type_of (C self) \in SupportedTypes) ;;;
  assert (type_of (D self) \in SupportedTypes).

(** [ss(A,B,C,D,dt)]: the dimensions read off [B] and [C] and the three
    shape assertions are those of the type. *)
Definition ss_init nx nu ny (A0 : array nx nx) (B0 : array nx nu)
    (C0 : array ny nx) (D0 : array ny nu) (dt0 : option F) :
    result (ss nx nu ny) :=
  let self := SS A0 B0 C0 D0 dt0 in
  check_types self ;;;
  Ok self.

Definition get_mats nx nu ny (self : ss nx nu ny) :=
  (A self, B self, C self, D self).

(** [1e-10] and [1e-13] *)
Definition tol_couple : F := 10%:R ^- 10.
Definition tol_sum : F := 10%:R ^- 13.

(** [libsp.dot(libsp.dot(X,Y),Z)] *)
Definition dot3 m n p q (X : array m n) (Y : array n p) (Z : array p q) :
    result (array m q) :=
  XY <-- dot X Y None ;;
  dot XY Z None.

(** *** couple

    [maxD1=np.max(np.abs(D1))] and [maxD2] are computed by the source and
    never used (both tests end in [pass]); they do not appear below.
    These reductions are defined on non-empty arrays, that is, for models
    with at least one input and one output. *)
Definition couple nx1 nu1 ny1 nx2 nu2 ny2
    (ss01 : ss nx1 nu1 ny1) (ss02 : ss nx2 nu2 ny2)
    (K12 : array nu1 ny2) (K21 : array nu2 ny1) (out_sparse : bool) :
    result (ss (nx1 + nx2) (nu1 + nu2) (ny1 + ny2)) :=
  (* assert np.abs(ss01.dt-ss02.dt)<1e-10*ss01.dt *)
  steps_match <-- match dt ss01, dt ss02 with
                  | Some dt1, Some dt2 => Ok (`|dt1 - dt2| < tol_couple * dt1)
                  | _, _ => Raise TypeError
                  end ;;
  assert steps_match ;;;
  (* the assertions on K12.shape and K21.shape hold by typing *)
  let: (A1, B1, C1, D1) := get_mats ss01 in
  let: (A2, B2, C2, D2) := get_mats ss02 in
  (* compute self-influence gains *)
  D2K21 <-- dot D2 K21 None ;;
  K11 <-- dot K12 D2K21 None ;;
  D1K12 <-- dot D1 K12 None ;;
  K22 <-- dot K21 D1K12 None ;;
  (* left hand side terms *)
  L1 <-- dot (opp K11) D1 None ;;
  L2 <-- dot (opp K22) D2 None ;;
  E1 <-- eye_as L1 ;;
  let L1 := add L1 E1 in
  E2 <-- eye_as L2 ;;
  let L2 := add L2 E2 in
  (* coupling terms *)
  cpl_12 <-- solve L1 K12 ;;
  cpl_21 <-- solve L2 K21 ;;
  D2K21 <-- dot D2 K21 None ;;
  cpl_11 <-- dot cpl_12 D2K21 None ;;
  D1K12 <-- dot D1 K12 None ;;
  cpl_22 <-- dot cpl_21 D1K12 None ;;
  (* Build coupled system *)
  if out_sparse then Raise NameError
  else
    a11 <-- (t <-- dot3 B1 cpl_11 C1 ;; np_asarray (dense (add A1 t))) ;;
    a12 <-- (t <-- dot3 B1 cpl_12 C2 ;; np_asarray (dense t)) ;;
    a21 <-- (t <-- dot3 B2 cpl_21 C1 ;; np_asarray (dense t)) ;;
    a22 <-- (t <-- dot3 B2 cpl_22 C2 ;; np_asarray (dense (add A2 t))) ;;
    let Atot := block_mx a11 a12 a21 a22 in
    c11 <-- (t <-- dot3 D1 cpl_11 C1 ;; np_asarray (dense (add C1 t))) ;;
    c12 <-- (t <-- dot3 D1 cpl_12 C2 ;; np_asarray (dense t)) ;;
    c21 <-- (t <-- dot3 D2 cpl_21 C1 ;; np_asarray (dense t)) ;;
    c22 <-- (t <-- dot3 D2 cpl_22 C2 ;; np_asarray (dense (add C2 t))) ;;
    let Ctot := block_mx c11 c12 c21 c22 in
    b11 <-- (t <-- dot3 B1 cpl_11 D1 ;; np_asarray (dense (add B1 t))) ;;
    b12 <-- (t <-- dot3 B1 cpl_12 D2 ;; np_asarray (dense t)) ;;
    b21 <-- (t <-- dot3 B2 cpl_21 D1 ;; np_asarray (dense t)) ;;
    b22 <-- (t <-- dot3 B2 cpl_22 D2 ;; np_asarray (dense (add B2 t))) ;;
    let Btot := block_mx b11 b12 b21 b22 in
    d11 <-- (t <-- dot3 D1 cpl_11 D1 ;; np_asarray (dense (add D1 t))) ;;
    d12 <-- (t <-- dot3 D1 cpl_12 D2 ;; np_asarray (dense t)) ;;
    d21 <-- (t <-- dot3 D2 cpl_21 D1 ;; np_asarray (dense t)) ;;
    d22 <-- (t <-- dot3 D2 cpl_22 D2 ;; np_asarray (dense (add D2 t))) ;;
    let Dtot := block_mx d11 d12 d21 d22 in
    ss_init (Ndarray Atot) (Ndarray Btot) (Ndarray Ctot) (Ndarray Dtot)
            (dt ss01).

(** *** series *)

(** [ss.dlti]: the class [ss] defines [get_mats], [check_types],
    [freqresp], [addGain] and [scale], and no attribute [dlti]. *)
Definition ss_dlti nx nu ny (A0 : 'M[F]_(nx, nx)) (B0 : 'M[F]_(nx, nu))
    (C0 : 'M[F]_(ny, nx)) (D0 : array ny nu) (dt0 : option F) :
    result (ss nx nu ny) :=
  Raise AttributeError.

(** The four matrices that [series] assembles before it builds its
    result. *)
Definition series_mats nx1 nu1 ny1 nx2 ny2
    (SS01 : ss nx1 nu1 ny1) (SS02 : ss nx2 ny1 ny2) :
    result ('M[F]_(nx1 + nx2, nx1 + nx2) * 'M[F]_(nx1 + nx2, nu1) *
            'M[F]_(ny2, nx1 + nx2) * array ny2 nu1) :=
  (* Build A matrix: zeros, then three slice assignments *)
  a11 <-- np_asarray (A SS01) ;;
  a22 <-- np_asarray (A SS02) ;;
  a21 <-- (t <-- dot (B SS02) (C SS01) None ;; np_asarray t) ;;
  let Atot := block_mx a11 0 a21 a22 in
  (* Build the rest *)
  b1 <-- (t <-- dot (B SS02) (D SS01) None ;;
          b01 <-- np_asarray (B SS01) ;;
          b02 <-- np_asarray t ;;
          Ok (col_mx b01 b02)) ;;
  c1 <-- (t <-- dot (D SS02) (C SS01) None ;;
          c01 <-- np_asarray t ;;
          c02 <-- np_asarray (C SS02) ;;
          Ok (row_mx c01 c02)) ;;
  d1 <-- dot (D SS02) (D SS01) None ;;
  Ok (Atot, b1, c1, d1).

(** Both operands are instances of [ss], so the test on their types
    passes. *)
Definition series nx1 nu1 ny1 nx2 ny2
    (SS01 : ss nx1 nu1 ny1) (SS02 : ss nx2 ny1 ny2) :
    result (ss (nx1 + nx2) nu1 ny2) :=
  if dt SS01 != dt SS02 then Raise NameError
  else
    mats <-- series_mats SS01 SS02 ;;
    let: (Atot, Btot, Ctot, Dtot) := mats in
    ss_dlti Atot Btot Ctot Dtot (dt SS01).

(** *** Operands of join and sum *)

Inductive operand (nu ny : nat) : Type :=
  | Gain of array ny nu
  | Model nx of ss nx nu ny
  | SciPy nx of StateSpace nx nu ny.

(** *** join, with [type_dlti=scsig.ltisys.StateSpaceDiscrete] *)
Definition join nu1 ny1 nu2 ny2
    (SS1 : operand nu1 ny1) (SS2 : operand nu2 ny2) :
    result (operand (nu1 + nu2) (ny1 + ny2)) :=
  match SS1, SS2 with
  | Gain (Ndarray K1), Gain (Ndarray K2) =>
      Ok (Gain (Ndarray (block_mx K1 0 0 K2)))
  | Gain (Ndarray K1), SciPy _ S2 =>
      if sdt S2 is Some _ then
        let Atot := sA S2 in
        let Btot := row_mx 0 (sB S2) in
        let Ctot := col_mx 0 (sC S2) in
        let Dtot := block_mx K1 0 0 (sD S2) in
        Ok (SciPy (scsig_StateSpace Atot Btot Ctot Dtot (sdt S2)))
      else Raise NameError
  | SciPy _ S1, Gain (Ndarray K2) =>
      if sdt S1 is Some _ then
        let Atot := sA S1 in
        let Btot := row_mx (sB S1) 0 in
        let Ctot := col_mx (sC S1) 0 in
        let Dtot := block_mx (sD S1) 0 0 K2 in
        Ok (SciPy (scsig_StateSpace Atot Btot Ctot Dtot (sdt S1)))
      else Raise NameError
  | SciPy _ S1, SciPy _ S2 =>
      if (sdt S1 != None) && (sdt S2 != None) then
        assert (sdt S1 == sdt S2) ;;;
        let Atot := block_mx (sA S1) 0 0 (sA S2) in
        let Btot := block_mx (sB S1) 0 0 (sB S2) in
        let Ctot := block_mx (sC S1) 0 0 (sC S2) in
        let Dtot := block_mx (sD S1) 0 0 (sD S2) in
        Ok (SciPy (scsig_StateSpace Atot Btot Ctot Dtot (sdt S1)))
      else Raise NameError
  | _, _ => Raise NameError
  end.

(** *** sum, with [type_dlti=ss] *)
Definition sum nu ny (SS1 SS2 : operand nu ny) (negative : bool) :
    result (operand nu ny) :=
  match SS1, SS2 with
  | Gain (Ndarray K1), Gain (Ndarray K2) => Ok (Gain (Ndarray (K1 + K2)))
  | Gain (Ndarray Kmat), Model _ S2 =>
      let Dtot := add (D S2) (Ndarray Kmat) in
      a <-- np_asarray (A S2) ;;
      b <-- np_asarray (B S2) ;;
      c <-- np_asarray (C S2) ;;
      d <-- np_asarray Dtot ;;
      Ok (SciPy (scsig_StateSpace a b c d (dt S2)))
  | Model _ S1, Gain (Ndarray Kmat) =>
      let Dtot := add (D S1) (Ndarray Kmat) in
      (* dt=SS2.dt, where SS2 is the numpy.ndarray Kmat *)
      Raise AttributeError
  | Model _ S1, Model _ S2 =>
      (* assert np.abs(1.-SS1.dt/SS2.dt)<1e-13 *)
      same_step <-- match dt S1, dt S2 with
                    | Some dt1, Some dt2 =>
                        if dt2 == 0 then Raise ZeroDivisionError
                        else Ok (`|1 - dt1 / dt2| < tol_sum)
                    | _, _ => Raise TypeError
                    end ;;
      assert same_step ;;;
      a1 <-- np_asarray (A S1) ;;
      a2 <-- np_asarray (A S2) ;;
      b1 <-- np_asarray (B S1) ;;
      b2 <-- np_asarray (B S2) ;;
      c1 <-- np_asarray (C S1) ;;
      c2 <-- np_asarray (C S2) ;;
      d <-- np_asarray (add (D S1) (D S2)) ;;
      Ok (@SciPy nu ny _ (scsig_StateSpace (block_mx a1 0 0 a2) (col_mx b1 b2)
                            (row_mx c1 c2) d (dt S1)))
  | _, _ => Raise NameError
  end.

End Models.

Section FrequencyResponse.

(** Complex arithmetic takes place in a closed numeric field; the real
    functions [numpy.cos] and [numpy.sin] are given. *)
Variable K : numClosedFieldType.
Variables np_cos np_sin : K -> K.

Local Notation array := (array K).

(** The body of the loop over the frequencies: one slice
    [Yfreq[:,:,ii]] per element of [zv]. *)
Fixpoint freqresp_loop nx nu ny (SS0 : ss K nx nu ny) (Eye : array nx nx)
    (zv : seq K) : result (seq 'M[K]_(ny, nu)) :=
  if zv is z :: zv' then
    sol_cplx <-- solve (sub (scale z Eye) (A SS0)) (B SS0) ;;
    y <-- dot (C SS0) sol_cplx (Some t_ndarray) ;;
    Yii <-- np_asarray (add y (D SS0)) ;;
    Yrest <-- freqresp_loop SS0 Eye zv' ;;
    Ok (Yii :: Yrest)
  else Ok [::].

(** [freqresp(SS,wv,dlti)]: [SS] is an instance of [ss], which always has
    the attribute [dt]. *)
Definition freqresp nx nu ny (SS0 : ss K nx nu ny) (wv : seq K)
    (dlti : bool) : result (seq 'M[K]_(ny, nu)) :=
  check_types SS0 ;;;
  zv <-- (if dlti then
            if dt SS0 is Some Ts then
              Ok [seq np_cos (Ts * w) + 'i * np_sin (Ts * w) | w <- wv]
            else Raise TypeError
          else Ok [seq 'i * w | w <- wv]) ;;
  Eye <-- eye_as (A SS0) ;;
  freqresp_loop SS0 Eye zv.

(** The method [ss.freqresp]. *)
Definition ss_freqresp nx nu ny (self : ss K nx nu ny) (wv : seq K) :
    result (seq 'M[K]_(ny, nu)) :=
  let dlti := if dt self == None then false else true in
  freqresp self wv dlti.

End FrequencyResponse.

End libss.

(** ** Specification vocabulary and example systems *)

Section Tolerance.

Variable F : numFieldType.



End Tolerance.

Section FrequencyPoints.

Variable K : numClosedFieldType.
Variables np_cos np_sin : K -> K.

(** The points of the complex plane at which [freqresp] evaluates the
    transfer function. *)
Definition zv_of (step : option K) (wv : seq K) : seq K :=
  if step is Some Ts
  then [seq np_cos (Ts * w) + 'i * np_sin (Ts * w) | w <- wv]
  else [seq 'i * w | w <- wv].

End FrequencyPoints.

(** Single-input single-output systems with one state, over the rationals:
    [x' = a x + b u], [y = c x + d u]. *)
Definition siso (a b c d : rat) (step : option rat) : libss.ss rat 1 1 1 :=
  libss.SS (libsparse.Ndarray a%:M) (libsparse.Ndarray b%:M)
           (libsparse.Ndarray c%:M) (libsparse.Ndarray d%:M) step.



(** The same matrices as a continuous-time system. *)
Definition lag_continuous : libss.ss rat 1 1 1 := siso (1 / 2%:R) 1 1 0 None.

(** The 1x1 identity, stored column-compressed. *)
Definition sparse_one : libsparse.array rat 1 1 :=
  libsparse.Csc (libsparse.csc_eye rat 1).

(** ** Facts about the column-compressed storage *)

Import libsparse libss.

Section StorageFacts.

Variable F : fieldType.
Implicit Types (m n p : nat).
Local Notation csc := (csc F).

Lemma csc_of_ndarrayK m n (a : 'M[F]_(m, n)) :
  csc_toarray (csc_of_ndarray a) = a.
Proof.
apply/matrixP => i j; rewrite mxE ffunE big_map big_filter_cond /=.
rewrite big_enum_cond /= big_mkcond /= (bigD1 i) //= eqxx andbT.
rewrite big1 ?addr0; first by move=> k /negbTE ->; rewrite andbF.
by have [->|] := eqVneq (a i j) 0.
Qed.

Lemma csr_dot_ndarrayE m n p (s : csc m n) (b : 'M[F]_(m, p)) :
  csr_dot_ndarray (csc_transpose s) b = (csc_toarray s)^T *m b.
Proof.
apply/matrixP => j k; rewrite !mxE.
under [RHS]eq_bigr => i _ do rewrite !mxE big_distrl /=.
rewrite (exchange_big_dep predT) //=; apply: eq_bigr => e _.
by rewrite (big_pred1 e.1) // => i; rewrite /= eq_sym.
Qed.

Lemma csc_dot_ndarrayE m n p (s : csc m n) (b : 'M[F]_(n, p)) :
  csc_dot_ndarray s b = csc_toarray s *m b.
Proof.
apply/matrixP => i k; rewrite !mxE; apply: eq_bigr => j _.
by rewrite mxE big_distrl.
Qed.

Lemma csc_oppE m n (s : csc m n) : csc_toarray (csc_opp s) = - csc_toarray s.
Proof. by apply/matrixP => i j; rewrite !mxE ffunE big_map /= sumrN. Qed.

Lemma csc_scaleE m n (z : F) (s : csc m n) :
  csc_toarray (csc_scale z s) = z *: csc_toarray s.
Proof. by apply/matrixP => i j; rewrite !mxE ffunE big_map /= big_distrr. Qed.

Lemma csc_eyeE n : csc_toarray (csc_eye F n) = 1%:M.
Proof.
apply/matrixP => i j; rewrite !mxE ffunE big_cons big_nil /= addr0 eq_sym.
by case: eqP.
Qed.

Lemma csc_addE m n (s t : csc m n) :
  csc_toarray (csc_add s t) = csc_toarray s + csc_toarray t.
Proof. exact: csc_of_ndarrayK. Qed.

Lemma csc_dot_cscE m n p (s : csc m n) (t : csc n p) :
  csc_toarray (csc_dot_csc s t) = csc_toarray s *m csc_toarray t.
Proof. exact: csc_of_ndarrayK. Qed.

End StorageFacts.

(** ** Facts about the dispatch layer *)

Section ArrayFacts.

Variable F : fieldType.
Implicit Types (m n p : nat).
Local Notation array := (array F).

Lemma supported m n (M : array m n) : type_of M \in SupportedTypes.
Proof. by case: M. Qed.

Lemma mx_dot_product m n p (A : array m n) (B : array n p) :
  mx (dot_product A B) = mx A *m mx B.
Proof.
case: A => a; case: B => b //=.
- by rewrite csr_dot_ndarrayE trmx_mul !trmxK.
- exact: csc_dot_ndarrayE.
- exact: csc_dot_cscE.
Qed.

Lemma dot_default m n p (A : array m n) (B : array n p) :
  dot A B None = Ok (dot_product A B).
Proof. by case: A => a; case: B => b. Qed.

Lemma type_dot_product m n p (A : array m n) (B : array n p) :
  type_of (dot_product A B) =
  if (type_of A == t_csc_matrix) && (type_of B == t_csc_matrix)
  then t_csc_matrix else t_ndarray.
Proof. by case: A => a; case: B => b. Qed.

Lemma mx_add m n (A B : array m n) : mx (add A B) = mx A + mx B.
Proof. by case: A => a; case: B => b //=; rewrite csc_addE. Qed.

Lemma mx_opp m n (A : array m n) : mx (opp A) = - mx A.
Proof. by case: A => a //=; rewrite csc_oppE. Qed.

Lemma mx_scale m n (z : F) (A : array m n) : mx (scale z A) = z *: mx A.
Proof. by case: A => a //=; rewrite csc_scaleE. Qed.

Lemma mx_sub m n (A B : array m n) : mx (sub A B) = mx A - mx B.
Proof. by rewrite /sub mx_add mx_opp. Qed.

Lemma mx_csc_matrix m n (A : array m n) : mx (csc_matrix A) = mx A.
Proof. by case: A => a //=; rewrite csc_of_ndarrayK. Qed.

Lemma dense_ndarray m n (M : array m n) : dense M = Ndarray (mx M).
Proof. by case: M. Qed.

Lemma eye_asE n (M : array n n) :
  exists2 E, eye_as M = Ok E & mx E = 1%:M /\ type_of E = type_of M.
Proof.
case: M => a; [exists (Ndarray 1%:M) | exists (Csc (csc_eye F n))] => //=.
by rewrite csc_eyeE.
Qed.

Lemma solve_unit n p (A : array n n) (b : array n p) :
  mx A \in unitmx ->
  exists2 x, solve A b = Ok x & mx x = invmx (mx A) *m mx b.
Proof.
case: A => a; case: b => b /= Ua; rewrite /solve /= /np_linalg_solve ?Ua /=.
- by exists (Ndarray (invmx a *m b)).
- by exists (Ndarray (invmx a *m csc_toarray b)).
- by exists (Ndarray (invmx (csc_toarray a) *m b)).
- exists (Csc (csc_of_ndarray (invmx (csc_toarray a) *m csc_toarray b))) => //=.
  by rewrite csc_of_ndarrayK.
Qed.

End ArrayFacts.

(** ** The dispatch layer: round trip, output class, agreement with the
    dense computation *)

Section DispatchProperties.

Variable F : numFieldType.
Implicit Types (m n p : nat).
Local Notation array := (array F).

(** Claim C9.  Building the column-compressed matrix of a dense 2-D array
    [M] and densifying it again gives back a dense array with the shape
    and the entries of [M]; [dense] returns a dense argument unchanged and
    is idempotent. *)
Theorem dense_csc_matrix_round_trip m n (M : 'M[F]_(m, n)) (X : array m n) :
  [/\ dense (csc_matrix (Ndarray M)) = Ndarray M,
      dense (Ndarray M) = Ndarray M
    & dense (dense X) = dense X].
Proof.
split=> //; first by rewrite dense_ndarray mx_csc_matrix.
by rewrite !dense_ndarray.
Qed.

(** Claim C8, as amended.  When [type_out] is omitted, [dot] returns a
    sparse result when both operands are sparse and a dense result
    otherwise: a dense left operand gives a dense product, and so does a
    sparse left operand with a dense right operand. *)
Theorem dot_default_output_class m n p (A : array m n) (B : array n p) :
  exists2 C, dot A B None = Ok C
    & type_of C = if (type_of A == t_csc_matrix) && (type_of B == t_csc_matrix)
                  then t_csc_matrix else t_ndarray.
Proof. by exists (dot_product A B); rewrite ?dot_default ?type_dot_product. Qed.

(** What [dot] does with an explicit [type_out]: the result is converted
    to the requested class, except for a sparse [A] and a dense [B], where
    the dense product is handed to [todense] (request for a dense result)
    or returned as it is (request for a sparse result). *)
Lemma dot_explicit_output m n p (A : array m n) (B : array n p)
    (s : csc F m n) (b : 'M[F]_(n, p)) (t : pytype) :
  t \in SupportedTypes ->
  [/\ (type_of A == t_csc_matrix) ==> (type_of B == t_csc_matrix) ->
        exists C, [/\ dot A B (Some t) = Ok C, type_of C = t
                     & mx C = mx A *m mx B],
      dot (Csc s) (Ndarray b) (Some t_ndarray) = Raise AttributeError
    & dot (Csc s) (Ndarray b) (Some t_csc_matrix) =
        Ok (Ndarray (csc_dot_ndarray s b))].
Proof.
move=> supp_t; split=> // cls.
have eC := mx_dot_product A B.
case: t supp_t => // _; case: A cls eC => a; case: B => c //= _ eC.
- by exists (Ndarray (a *m c)).
- by eexists; split=> //; rewrite -eC.
- by exists (Ndarray (csc_toarray (csc_dot_csc a c))); split=> //; rewrite -eC.
- by exists (Csc (csc_of_ndarray (a *m c))); split=> //=; rewrite csc_of_ndarrayK.
- by eexists; split=> //=; rewrite csc_of_ndarrayK -eC.
- by exists (Csc (csc_dot_csc a c)).
Qed.





End DispatchProperties.


(** Counterexample to C8 as stated: the product of a sparse left operand
    with a dense right operand is a dense array, not a sparse one. *)
Lemma dot_sparse_dense_is_dense :
  type_of sparse_one = t_csc_matrix /\
  exists C, dot sparse_one (Ndarray (1%:M : 'M[rat]_1)) None = Ok C
            /\ type_of C = t_ndarray
            /\ type_of C <> type_of sparse_one.
Proof.
split=> //.
by exists (Ndarray (csc_dot_ndarray (csc_eye rat 1) 1%:M)).
Qed.

(** ** Feedback coupling *)

Section CoupleProperties.

Variable F : numFieldType.
Local Notation array := (array F).
Variables (nx1 nu1 ny1 nx2 nu2 ny2 : nat).


Lemma bind_OkI (T U : Type) (c : result T) (k : T -> result U) (y : U) :
  bind c k = Ok y -> exists2 x, c = Ok x & k x = Ok y.
Proof. by case: c => [x|e] //= kx; exists x. Qed.

Ltac bind_inv :=
  let H := fresh "H" in move=> H; case: (bind_OkI H) => {H} ? _.





(** Claim C10.  When the sample interval of both models is absent,
    [couple] raises [TypeError] at its comparison of the time steps,
    whatever the gains and the [out_sparse] flag; a model returned by
    [couple] always carries a sample interval. *)
Theorem couple_rejects_continuous_time
    (S1 : ss F nx1 nu1 ny1) (S2 : ss F nx2 nu2 ny2)
    (K12 : array nu1 ny2) (K21 : array nu2 ny1) (out_sparse : bool) :
  dt S1 = None -> dt S2 = None ->
  couple S1 S2 K12 K21 out_sparse = Raise TypeError
  /\ forall (T1 : ss F nx1 nu1 ny1) (T2 : ss F nx2 nu2 ny2) K K' flag S,
       couple T1 T2 K K' flag = Ok S -> dt S = dt T1 /\ dt S <> None.
Proof.
move=> E1 E2; split; first by rewrite /couple E1.
move=> T1 T2 K K' flag S; rewrite /couple.
case: (dt T1) => [d1|] //; case: (dt T2) => [d2|] //=.
case: (_ < _) => //=.
do 14!bind_inv; case: flag => //.
do 16!bind_inv.
by rewrite /ss_init /= => -[<-].
Qed.

End CoupleProperties.









(** Witness of C10: the continuous-time lag. *)
Lemma couple_rejects_continuous_time_witness :
  dt lag_continuous = None /\
  couple lag_continuous lag_continuous (Ndarray 1%:M) (Ndarray 1%:M) false =
    Raise TypeError.
Proof.
split; first exact: erefl.
by case: (@couple_rejects_continuous_time rat 1 1 1 1 1 1
  lag_continuous lag_continuous (Ndarray 1%:M) (Ndarray 1%:M) false
  (erefl _) (erefl _)).
Defined.

(** ** Series connection, join and sum *)

Section InterconnectionProperties.

Variable F : numFieldType.
Local Notation array := (array F).

(** Claim C4, evaluated on the code.  [series] assembles the matrices of
    the series connection ([A] block-diagonal in [A1], [A2] with the
    coupling block [B2 C1], [B = [B1; B2 D1]], [C = [D2 C1, C2]],
    [D = D2 D1]) and then fails with [AttributeError] when it builds the
    result through [ss.dlti]: it returns no model, for any operands. *)
Theorem series_never_returns nx1 nu1 ny1 nx2 ny2
    (S1 : ss F nx1 nu1 ny1) (S2 : ss F nx2 ny1 ny2)
    (a1 : 'M[F]_nx1) (b1 : 'M[F]_(nx1, nu1))
    (c1 : 'M[F]_(ny1, nx1)) (d1 : 'M[F]_(ny1, nu1))
    (a2 : 'M[F]_nx2) (b2 : 'M[F]_(nx2, ny1))
    (c2 : 'M[F]_(ny2, nx2)) (d2 : 'M[F]_(ny2, ny1)) (step : option F) :
  let T1 := SS (Ndarray a1) (Ndarray b1) (Ndarray c1) (Ndarray d1) step in
  let T2 := SS (Ndarray a2) (Ndarray b2) (Ndarray c2) (Ndarray d2) step in
  [/\ is_ok (series S1 S2) = false,
      series_mats T1 T2 =
        Ok (block_mx a1 0 (b2 *m c1) a2, col_mx b1 (b2 *m d1),
            row_mx (d2 *m c1) c2, Ndarray (d2 *m d1))
    & series T1 T2 = Raise AttributeError].
Proof.
move=> T1 T2; split.
- rewrite /series; case: (_ != _) => //.
  by case: (series_mats S1 S2) => // -[[[? ?] ?] ?].
- by [].
- by rewrite /series eqxx.
Qed.

(** Claim C6, evaluated on the code.  [join] recognises
    [numpy.ndarray] gains and [scipy.signal] discrete-time systems only:
    with an instance of the class [ss] as either operand it raises
    [NameError], in each of the three combinations that involve a
    model. *)
Theorem join_rejects_ss_models nu1 ny1 nx1 nu2 ny2 nx2
    (S1 : ss F nx1 nu1 ny1) (S2 : ss F nx2 nu2 ny2)
    (K1 : array ny1 nu1) (K2 : array ny2 nu2) :
  [/\ join (Gain K1) (Model S2) = Raise NameError,
      join (Model S1) (Gain K2) = Raise NameError
    & join (Model S1) (Model S2) = Raise NameError].
Proof. by split; [case: K1 | case: K2 |]. Qed.

(** What [join] does on the operands it recognises: the block-diagonal
    composition, with zero cross-coupling blocks. *)
Lemma join_block_diagonal nu1 ny1 nx1 nu2 ny2 nx2
    (K1 : 'M[F]_(ny1, nu1)) (K2 : 'M[F]_(ny2, nu2))
    (a1 : 'M[F]_nx1) (b1 : 'M[F]_(nx1, nu1))
    (c1 : 'M[F]_(ny1, nx1)) (d1 : 'M[F]_(ny1, nu1))
    (a2 : 'M[F]_nx2) (b2 : 'M[F]_(nx2, nu2))
    (c2 : 'M[F]_(ny2, nx2)) (d2 : 'M[F]_(ny2, nu2)) (step : F) :
  let T1 := scsig_StateSpace a1 b1 c1 d1 (Some step) in
  let T2 := scsig_StateSpace a2 b2 c2 d2 (Some step) in
  [/\ join (Gain (Ndarray K1)) (Gain (Ndarray K2)) =
        Ok (Gain (Ndarray (block_mx K1 0 0 K2))),
      join (Gain (Ndarray K1)) (SciPy T2) =
        Ok (SciPy (scsig_StateSpace a2 (row_mx 0 b2) (col_mx 0 c2)
                     (block_mx K1 0 0 d2) (Some step))),
      join (SciPy T1) (Gain (Ndarray K2)) =
        Ok (SciPy (scsig_StateSpace a1 (row_mx b1 0) (col_mx c1 0)
                     (block_mx d1 0 0 K2) (Some step)))
    & join (SciPy T1) (SciPy T2) =
        Ok (SciPy (scsig_StateSpace (block_mx a1 0 0 a2) (block_mx b1 0 0 b2)
                     (block_mx c1 0 0 c2) (block_mx d1 0 0 d2) (Some step)))].
Proof. by split=> //; rewrite /join /= eqxx. Qed.

(** Claim C7, evaluated on the code.  [sum(S1, K)], with the model first,
    reads the attribute [dt] of its second operand, the gain matrix, and
    raises [AttributeError]; [sum(K, S1)], with the gain first, returns the
    system with the matrices [A], [B], [C] and the sample interval of [S1]
    and with [D1 + K] as feedthrough. *)
Theorem sum_model_gain_fails nx nu ny (S1 : ss F nx nu ny)
    (K : 'M[F]_(ny, nu)) (negative : bool)
    (a : 'M[F]_nx) (b : 'M[F]_(nx, nu)) (c : 'M[F]_(ny, nx))
    (d : array ny nu) (step : F) :
  sum (Model S1) (Gain (Ndarray K)) negative = Raise AttributeError
  /\ sum (Gain (Ndarray K))
         (Model (SS (Ndarray a) (Ndarray b) (Ndarray c) d (Some step)))
         negative =
     Ok (SciPy (scsig_StateSpace a b c (mx d + K) (Some step))).
Proof. by split; [| case: d]. Qed.

End InterconnectionProperties.

(** ** Frequency response *)

Section FrequencyResponseProperties.

Variable K : numClosedFieldType.
Variables np_cos np_sin : K -> K.
Local Notation array := (array K).

Lemma dot_dense_left m n p (c : 'M[K]_(m, n)) (X : array n p) :
  dot (Ndarray c) X (Some t_ndarray) = Ok (Ndarray (c *m mx X)).
Proof.
case: X => x //=; rewrite /dot /=.
by rewrite csr_dot_ndarrayE trmx_mul !trmxK.
Qed.

Lemma freqresp_loop_dense_C nx nu ny (S : ss K nx nu ny) (Eye : array nx nx)
    (zv : seq K) :
  type_of (C S) = t_ndarray -> mx Eye = 1%:M ->
  all (fun z => z *: 1%:M - mx (A S) \in unitmx) zv ->
  freqresp_loop S Eye zv =
  Ok [seq mx (C S) *m (invmx (z *: 1%:M - mx (A S)) *m mx (B S)) + mx (D S)
     | z <- zv].
Proof.
move=> tC mE; elim: zv => [|z zv IH] //= /andP[Uz Uzv].
have Us : mx (sub (scale z Eye) (A S)) \in unitmx.
  by rewrite mx_sub mx_scale mE.
have [x -> ex] /= := solve_unit (B S) Us.
rewrite IH //; case eC: (C S) tC => [c|] // _.
rewrite dot_dense_left /= ex mx_sub mx_scale mE.
by case: (D S).
Qed.

Lemma freqresp_dense_C nx nu ny (S : ss K nx nu ny) (wv : seq K) :
  type_of (C S) = t_ndarray ->
  all (fun z => z *: 1%:M - mx (A S) \in unitmx) (zv_of np_cos np_sin (dt S) wv) ->
  exists2 Yfreq, ss_freqresp np_cos np_sin S wv = Ok Yfreq
    & size Yfreq = size wv /\
      forall k, (k < size wv)%N ->
        let z := nth 0 (zv_of np_cos np_sin (dt S) wv) k in
        let X := invmx (z *: 1%:M - mx (A S)) *m mx (B S) in
        (z *: 1%:M - mx (A S)) *m X = mx (B S) /\
        nth 0 Yfreq k = mx (C S) *m X + mx (D S).
Proof.
move=> tC Uzv.
have [Eye eEye [mE _]] := eye_asE (A S).
pose Y := [seq mx (C S) *m (invmx (z *: 1%:M - mx (A S)) *m mx (B S))
                + mx (D S) | z <- zv_of np_cos np_sin (dt S) wv].
have szv : size (zv_of np_cos np_sin (dt S) wv) = size wv.
  by rewrite /zv_of; case: (dt S) => [Ts|]; rewrite size_map.
exists Y; last first.
  split=> [|k ltk /=]; first by rewrite size_map.
  split; last by rewrite (nth_map 0) ?szv.
  by rewrite mulKVmx //; apply: (allP Uzv); rewrite mem_nth ?szv.
rewrite /ss_freqresp /freqresp.
have -> : check_types S = Ok tt.
  by rewrite /check_types !supported.
move: Uzv @Y; rewrite /zv_of; case: (dt S) => [Ts|] /= Uzv;
  by rewrite eEye /= freqresp_loop_dense_C.
Qed.
(** Claim C5, evaluated on the code.  For a model whose [C] is sparse and
    whose [B] is dense, [freqresp] returns no array: at the first frequency
    the solution [X] is dense, the product [C X] is dense, and the
    conversion asked of [dot] through [type_out] calls [todense] on a
    [numpy.ndarray], which raises [AttributeError] (unless the solve has
    already failed on a singular [z I - A]). *)
Theorem freqresp_sparse_C_fails nx nu ny
    (a : array nx nx) (b : 'M[K]_(nx, nu)) (c : csc K ny nx) (d : array ny nu)
    (step : option K) (w : K) (wv : seq K) :
  let S := SS a (Ndarray b) (Csc c) d step in
  let z := if step is Some Ts
           then np_cos (Ts * w) + 'i * np_sin (Ts * w) else 'i * w in
  ss_freqresp np_cos np_sin S (w :: wv) =
    if z *: 1%:M - mx a \in unitmx then Raise AttributeError
    else Raise (if type_of a == t_ndarray then LinAlgError
                else MatrixRankWarning).
Proof.
case: step => [Ts|]; case: d => d; case: a => a /=;
  rewrite /ss_freqresp /freqresp /= /solve /= /np_linalg_solve
          ?csc_addE ?csc_scaleE ?csc_eyeE ?csc_oppE;
  by case: (_ \in unitmx).
Qed.

End FrequencyResponseProperties.
